(** * steak: the staking validation script [run.ts]

    A shallow embedding of the orchestration script and of the value
    types it exchanges with the chain client (web3) and with the staking
    API client (the generated SDK of [.api/apis/blockdaemon/index.ts]).

    The script is a straight line of console output, prompts and awaited
    calls.  It is embedded in a small monad that threads the trace of
    observable events and stops on [process.exit] or on an uncaught
    exception.  Whatever answers from outside the script (the chain, the
    staking service, the person at the terminal) is an oracle of the
    [World]; the pure functions of the web3 library and of the JS runtime
    that the script calls but does not define are gathered in
    [Externals]. *)

From Stdlib Require Import ZArith NArith List String Ascii Bool Lia.
From Stdlib Require Import DecimalString DecimalN.
Import ListNotations.
Local Open Scope string_scope.

(** ** Values of the JS runtime *)

Module JS.

(** A JS number is a binary64.  The script has two of them: an integer
    below 2^53, kept as the integer it is, and the literal [0.000001],
    kept as the dyadic [m * 2^e] the literal denotes. *)
Inductive Number : Type :=
| Int (z : Z)
| Double (m e : Z).

Definition MAX_SAFE_INTEGER : Z := 2 ^ 53 - 1.

(** [BigInt.prototype.toString()] on a non-negative bigint, also what
    [Number.prototype.toString()] gives on a non-negative safe integer. *)
Definition BigInt_toString (n : N) : string :=
  NilEmpty.string_of_uint (N.to_uint n).

Definition Int_toString (z : Z) : string :=
  match z with
  | Zneg p => "-" ++ BigInt_toString (Npos p)
  | _ => BigInt_toString (Z.to_N z)
  end.

(** [x] is exactly the rational [p / q]. *)
Definition isRational (x : Number) (p q : Z) : Prop :=
  match x with
  | Int z => (z * q = p)%Z
  | Double m e =>
      if (e <? 0)%Z then (m * q = p * 2 ^ (- e))%Z
      else (m * 2 ^ e * q = p)%Z
  end.

(** [x] is a binary64 with a 53-bit significand that lies within half a
    unit in the last place of [p / q]: it is a nearest double. *)
Definition isNearestDouble (x : Number) (p q : Z) : Prop :=
  match x with
  | Int z => (z * q = p)%Z
  | Double m e =>
      (2 ^ 52 <= m < 2 ^ 53)%Z /\ (e < 0)%Z /\
      (2 * Z.abs (m * q - p * 2 ^ (- e)) <= q)%Z
  end.

(** The character ["\n"]. *)
Definition nl : string := String (ascii_of_nat 10) EmptyString.

End JS.
Import JS.

(** ** Data model *)

(** [Bun.env], as declared in [run.ts]. *)
Record Env : Type := {
  EXECUTION_API_KEY : string;
  NETWORK : string;
  PRIVATE_KEY : string;
  RECEIVER_ADDRESS : string;
  STAKING_API_KEY : string
}.

(** Unit names accepted by [web3.utils.fromWei] and [web3.utils.toWei];
    the script passes ["ether"] and ["gwei"]. *)
Inductive EtherUnit : Type := wei | gwei | ether.

(** The wallet entry that [web3.eth.accounts.wallet.add(key)[0]] gives;
    the script reads its [address] only. *)
Record Account : Type := { address : string }.

(** The argument of [web3.eth.sendTransaction]. *)
Record Transaction : Type := {
  tx_from : string;
  tx_to : string;
  tx_value : string;
  tx_data : option string
}.

(** Body of [POST /v1/ethereum/{network}/stake-intents]. *)
Record Stake : Type := {
  amount : string;
  withdrawal_address : string
}.

Record StakeIntentRequest : Type := { stakes : list Stake }.

(** The [ethereum] object of the response: the script names
    [unsigned_transaction]; [contract_address] is the other field the SDK
    documents. *)
Record EthereumIntent : Type := {
  unsigned_transaction : string;
  contract_address : string
}.

(** The [data] of the response; [ethereum] may be absent, which is why the
    script reads it through [intent?.unsigned_transaction]. *)
Record StakeIntentData : Type := { ethereum : option EthereumIntent }.

(** Pure functions the script calls and does not define.  [None] stands
    for a thrown exception. *)
Record Externals : Type := {
  (** [Number.prototype.toString()] on a double that is not an integer *)
  Number_toString_double : Z -> Z -> string;
  (** [web3.eth.accounts.wallet.add(privateKey)[0]] *)
  web3_wallet_add : string -> option Account;
  (** [web3.utils.fromWei(value, unit)] *)
  web3_fromWei : string -> EtherUnit -> option string;
  (** [web3.utils.toWei(value, unit)] *)
  web3_toWei : Number -> EtherUnit -> option string
}.

Definition Number_toString (js : Externals) (x : Number) : string :=
  match x with
  | Int z => Int_toString z
  | Double m e => Number_toString_double js m e
  end.

(** ** Events, traces and the world *)

Section Events.

(** The transaction receipt is opaque to the script. *)
Variable Receipt : Type.

(** One argument of a [console.log] call. *)
Inductive LogArg : Type :=
| LStr (s : string)
| LReceipt (r : Receipt)
| LIntent (i : option EthereumIntent).

(** What a run does that can be seen from outside, each awaited call
    with the answer it got ([None]: the promise rejected). *)
Inductive Event : Type :=
| ConsoleLog (args : list LogArg)
| GetBalance (addr : string) (result : option N)
| Confirm (prompt : string) (answer : bool)
| SendTransaction (tx : Transaction) (result : option Receipt)
| Auth (key : string)
| PostEthereumStakeIntent (body : StakeIntentRequest) (network : string)
    (result : option StakeIntentData).

Definition Trace : Type := list Event.

(** The answers from outside.  Each oracle sees the events so far, so
    that two calls with the same argument may be answered differently. *)
Record World : Type := {
  eth_getBalance : Trace -> string -> option N;
  prompt_confirm : Trace -> string -> bool;
  eth_sendTransaction : Trace -> Transaction -> option Receipt;
  steak_postEthereumStakeIntent :
    Trace -> StakeIntentRequest -> string -> option StakeIntentData
}.

(** How a run ends short of the last line. *)
Inductive Halt : Type :=
| Exit (code : Z)
| Uncaught.

(** ** The script monad: a trace, and a result or a halt *)

Definition M (A : Type) : Type := Trace -> (A + Halt) * Trace.

Definition ret {A : Type} (a : A) : M A := fun t => (inl a, t).

Definition bind {A B : Type} (m : M A) (k : A -> M B) : M B :=
  fun t =>
    match m t with
    | (inl a, t') => k a t'
    | (inr h, t') => (inr h, t')
    end.

Definition emit (e : Event) : M unit := fun t => (inl tt, (t ++ [e])%list).

Definition process_exit {A : Type} (code : Z) : M A :=
  fun t => (inr (Exit code), t).

Definition throw {A : Type} : M A := fun t => (inr Uncaught, t).

(** A call of an external function that may throw. *)
Definition orThrow {A : Type} (o : option A) : M A :=
  match o with
  | Some a => ret a
  | None => throw
  end.

(** An awaited call: the event records the answer, a rejection is an
    uncaught exception of the top-level await. *)
Definition await {A : Type} (answer : Trace -> option A)
    (ev : option A -> Event) : M A :=
  fun t =>
    let r := answer t in
    (match r with Some a => inl a | None => inr Uncaught end,
     (t ++ [ev r])%list).

End Events.

Arguments LStr {Receipt} s.
Arguments LReceipt {Receipt} r.
Arguments LIntent {Receipt} i.
Arguments ConsoleLog {Receipt} args.
Arguments GetBalance {Receipt} addr result.
Arguments Confirm {Receipt} prompt answer.
Arguments SendTransaction {Receipt} tx result.
Arguments Auth {Receipt} key.
Arguments PostEthereumStakeIntent {Receipt} body network result.
Arguments ret {Receipt A} a _.
Arguments bind {Receipt A B} m k _.
Arguments emit {Receipt} e _.
Arguments process_exit {Receipt A} code _.
Arguments throw {Receipt A} _.
Arguments orThrow {Receipt A} o _.
Arguments await {Receipt A} answer ev _.

Declare Scope script_scope.
Delimit Scope script_scope with script.
Notation "x <- m ;; k" := (bind m (fun x => k))
  (at level 61, m at next level, right associativity) : script_scope.
Notation "m ;; k" := (bind m (fun _ => k))
  (at level 61, right associativity) : script_scope.

(** ** The script *)

(** The [switch] on [Bun.env.NETWORK]: the two [case]s give the staking
    contract's address, [default] gives none. *)
Definition selectContract (network : string) : option string :=
  if (network =? "mainnet")%string then
    Some "0x3f124c700fb5e741f128e28985267d44f56b242f"
  else if (network =? "holesky")%string then
    Some "0x0b6e07c5ead5596c1f26ca2f6b97050cec853671"
  else None.

(** [const amountInETH = 0.000001]: the binary64 nearest to 10^-6. *)
Definition amountInETH : Number := Double 4722366482869645 (-72).

(** [const amountInGwei = 32 * 10 ** 9]: both operations are exact, the
    operands and the results being integers below 2^53. *)
Definition amountInGwei : Number := Int (32 * 10 ^ 9).

Definition banner : string := nl ++ "😈 😈 😈" ++ nl.

Definition steakBanner : string := nl ++ " 🥩 🥩 🥩 " ++ nl.

Definition unsupportedMessage (env : Env) : string :=
  "Network " ++ NETWORK env ++ " not supported".

(** The endpoint handed to [new Web3(...)]; building the client calls
    nothing. *)
Definition providerUrl (env : Env) : string :=
  "https://svc.blockdaemon.com/ethereum/" ++ NETWORK env
    ++ "/native?apiKey=" ++ EXECUTION_API_KEY env.

Definition balanceLine (balance : string) : string :=
  "Sender Balance: " ++ balance ++ " ETH" ++ nl.

Definition sendPrompt (js : Externals) (env : Env) : string :=
  "Send " ++ Number_toString js amountInETH ++ " ETH to the receiver "
    ++ RECEIVER_ADDRESS env ++ " on " ++ NETWORK env
    ++ " to validate the envs?".

Definition createPrompt (env : Env) (contractAddr : string) : string :=
  "Create the unsigned transaction which sends 32 ETH to the contract "
    ++ contractAddr ++ " on " ++ NETWORK env ++ "?".

Definition signPrompt : string :=
  "Sign the unsigned transaction and send the signed one?".

Section Script.

Variable Receipt : Type.
Variable js : Externals.
Variable env : Env.
Variable w : World Receipt.

Local Open Scope script_scope.

Definition console_log (args : list (LogArg Receipt)) : M Receipt unit :=
  emit (ConsoleLog args).

Definition confirm (prompt : string) : M Receipt bool :=
  fun t =>
    let a := prompt_confirm Receipt w t prompt in
    (inl a, (t ++ [Confirm prompt a])%list).

Definition getBalance (addr : string) : M Receipt N :=
  await (fun t => eth_getBalance Receipt w t addr) (GetBalance addr).

Definition sendTransaction (tx : Transaction) : M Receipt Receipt :=
  await (fun t => eth_sendTransaction Receipt w t tx) (SendTransaction tx).

Definition steak_auth (key : string) : M Receipt unit := emit (Auth key).

Definition postEthereumStakeIntent (body : StakeIntentRequest)
    (network : string) : M Receipt StakeIntentData :=
  await (fun t => steak_postEthereumStakeIntent Receipt w t body network)
    (PostEthereumStakeIntent body network).

(** Lines 15 to 26. *)
Definition resolveContract : M Receipt string :=
  match selectContract (NETWORK env) with
  | Some contractAddr => ret contractAddr
  | None =>
      console_log [LStr (unsupportedMessage env)] ;;
      process_exit 0
  end.

(** [run.ts], top to bottom. *)
Definition run : M Receipt unit :=
  console_log [LStr banner] ;;
  contractAddr <- resolveContract ;;
  sender <- orThrow (web3_wallet_add js (PRIVATE_KEY env)) ;;
  console_log [LStr "Sender Address:"; LStr (address sender); LStr nl] ;;
  balWei <- getBalance (address sender) ;;
  balance <- orThrow (web3_fromWei js (BigInt_toString balWei) ether) ;;
  console_log [LStr (balanceLine balance)] ;;
  shouldSend <- confirm (sendPrompt js env) ;;
  (if shouldSend then
     console_log [LStr (nl ++ "Sending to the receiver ..." ++ nl)] ;;
     value <- orThrow (web3_toWei js amountInETH ether) ;;
     receipt <- sendTransaction
       {| tx_from := address sender;
          tx_to := RECEIVER_ADDRESS env;
          tx_value := value;
          tx_data := None |} ;;
     console_log [LStr "Receipt:"; LReceipt receipt; LStr nl]
   else ret tt) ;;
  console_log [LStr steakBanner] ;;
  steak_auth (STAKING_API_KEY env) ;;
  shouldCreateUnsigned <- confirm (createPrompt env contractAddr) ;;
  (if negb shouldCreateUnsigned then process_exit 0 else ret tt) ;;
  console_log
    [LStr (nl ++ "Creating the unsigned transaction ..." ++ nl)] ;;
  data <- postEthereumStakeIntent
    {| stakes :=
         [ {| amount := Number_toString js amountInGwei;
              withdrawal_address := address sender |} ] |}
    (NETWORK env) ;;
  let intent := ethereum data in
  console_log [LStr "Intent:"; LIntent intent; LStr nl] ;;
  shouldSignAndSend <- confirm signPrompt ;;
  (if negb shouldSignAndSend then process_exit 0 else ret tt) ;;
  console_log [LStr (nl ++ "Processing ..." ++ nl)] ;;
  value <- orThrow (web3_toWei js amountInGwei gwei) ;;
  receipt <- sendTransaction
    {| tx_from := address sender;
       tx_to := contractAddr;
       tx_value := value;
       tx_data := option_map unsigned_transaction intent |} ;;
  console_log [LStr "Receipt:"; LReceipt receipt; LStr nl].

(** A run from the empty trace: how it ended and what was seen. *)
Definition outcome : unit + Halt := fst (run []).
Definition trace : Trace Receipt := snd (run []).

End Script.

Arguments console_log {Receipt} args _.
Arguments confirm {Receipt} w prompt _.
Arguments getBalance {Receipt} w addr _.
Arguments sendTransaction {Receipt} w tx _.
Arguments steak_auth {Receipt} key _.
Arguments postEthereumStakeIntent {Receipt} w body network _.
Arguments resolveContract {Receipt} env _.
Arguments run {Receipt} js env w _.
Arguments outcome {Receipt} js env w.
Arguments trace {Receipt} js env w.

(** ** Reading a trace *)

Section Reading.

Context {Receipt : Type}.

(** The calls that leave the machine: the balance query, a broadcast,
    the staking API request. *)
Definition isNetworkCall (e : Event Receipt) : bool :=
  match e with
  | GetBalance _ _ | SendTransaction _ _ | PostEthereumStakeIntent _ _ _ =>
      true
  | _ => false
  end.

Definition isSendTransaction (e : Event Receipt) : bool :=
  match e with
  | SendTransaction _ _ => true
  | _ => false
  end.

Definition isStakeIntentCall (e : Event Receipt) : bool :=
  match e with
  | PostEthereumStakeIntent _ _ _ => true
  | _ => false
  end.

(** The prompts shown, in order, each with its answer. *)
Fixpoint confirmations (t : Trace Receipt) : list (string * bool) :=
  match t with
  | [] => []
  | Confirm p a :: t' => (p, a) :: confirmations t'
  | _ :: t' => confirmations t'
  end.

(** What follows [steak.auth(...)]: the staking step. *)
Fixpoint stakingStep (t : Trace Receipt) : Trace Receipt :=
  match t with
  | [] => []
  | Auth _ :: t' => t'
  | _ :: t' => stakingStep t'
  end.

(** The last event of a trace. *)
Fixpoint final (t : Trace Receipt) : option (Event Receipt) :=
  match t with
  | [] => None
  | [e] => Some e
  | _ :: t' => final t'
  end.

(** The broadcasts of a trace, in order. *)
Definition broadcasts (t : Trace Receipt) : Trace Receipt :=
  filter isSendTransaction t.

End Reading.

(** ** Unit conversion *)

Module Units.

(** Modelled from the spec: [web3.utils.fromWei] and [web3.utils.toWei]
    belong to the web3 package, which [run.ts] imports and whose code is
    not part of the sources.  The model is the spec's "exact decimal
    arithmetic between the three denominations": wei, gwei (10^9 wei)
    and ether (10^18 wei); amounts are non-negative. *)
Definition decimals (u : EtherUnit) : nat :=
  match u with
  | wei => 0
  | gwei => 9
  | ether => 18
  end.

Definition pow10 (k : nat) : N := 10 ^ N.of_nat k.

Definition digitChar (d : N) : ascii := ascii_of_N (48 + d).

Definition charDigit (c : ascii) : option N :=
  let n := N_of_ascii c in
  if (48 <=? n)%N && (n <=? 57)%N then Some (n - 48)%N else None.

(** The [k] decimal digits of [r], most significant first, zero-padded
    on the left. *)
Fixpoint fixedDigits (k : nat) (r : N) : string :=
  match k with
  | O => ""
  | S k' =>
      String (digitChar (r / pow10 k')) (fixedDigits k' (r mod pow10 k'))
  end.

Fixpoint stripTrailingZeros (s : string) : string :=
  match s with
  | "" => ""
  | String c s' =>
      match stripTrailingZeros s' with
      | "" => if (c =? "0")%char then "" else String c ""
      | r => String c r
      end
  end.

(** The numeral of a natural number, and back. *)
Definition parseNat (s : string) : option N :=
  option_map N.of_uint (NilZero.uint_of_string s).

(** The value, in units of 10^-k, of the digits after the point;
    nothing when a digit is worth less than one such unit. *)
Fixpoint fractionValue (k : nat) (s : string) {struct s} : option N :=
  match s, k with
  | "", _ => Some 0%N
  | String _ _, O => None
  | String c s', S k' =>
      match charDigit c, fractionValue k' s' with
      | Some d, Some v => Some (d * pow10 k' + v)%N
      | _, _ => None
      end
  end.

(** Cut at the first point. *)
Fixpoint splitPoint (s : string) : string * option string :=
  match s with
  | "" => ("", None)
  | String c s' =>
      if (c =? ".")%char then ("", Some s')
      else let (i, f) := splitPoint s' in (String c i, f)
  end.

(** Modelled from the spec: the amount [n] of wei written in unit [u],
    integer part, and a point and the fraction when there is one. *)
Definition render (n : N) (u : EtherUnit) : string :=
  let k := decimals u in
  let i := BigInt_toString (n / pow10 k) in
  match stripTrailingZeros (fixedDigits k (n mod pow10 k)) with
  | "" => i
  | f => i ++ "." ++ f
  end.

(** Modelled from the spec: [web3.utils.fromWei(value, unit)] on the
    numeral of a wei amount. *)
Definition fromWei (value : string) (u : EtherUnit) : option string :=
  match parseNat value with
  | Some n => Some (render n u)
  | None => None
  end.

(** Modelled from the spec: the number of wei a decimal numeral in unit
    [u] stands for. *)
Definition weiOf (value : string) (u : EtherUnit) : option N :=
  let k := decimals u in
  let (i, f) := splitPoint value in
  match parseNat i, fractionValue k (match f with Some f' => f' | None => "" end) with
  | Some a, Some b => Some (a * pow10 k + b)%N
  | _, _ => None
  end.

(** Modelled from the spec: [web3.utils.toWei(value, unit)] on a
    decimal numeral. *)
Definition toWei (value : string) (u : EtherUnit) : option string :=
  option_map BigInt_toString (weiOf value u).

End Units.

(** ** Scripted surroundings

    Concrete externals and worlds, to run the script on. *)

Module Scripted.

(** The web3 functions as modelled in [Units]; every key gives the same
    account; the runtime shows the one non-integer double of the script
    as [0.000001]. *)
Definition js : Externals :=
  {| Number_toString_double := fun _ _ => "0.000001";
     web3_wallet_add := fun _ => Some {| address := "0xA11CE" |};
     web3_fromWei := Units.fromWei;
     web3_toWei := fun x u =>
       match x with
       | Int z => Units.toWei (Int_toString z) u
       | Double _ _ => Units.toWei "0.000001" u
       end |}.

Definition envOf (network : string) : Env :=
  {| EXECUTION_API_KEY := "exec-key";
     NETWORK := network;
     PRIVATE_KEY := "0xKEY";
     RECEIVER_ADDRESS := "0xB0B";
     STAKING_API_KEY := "stake-key" |}.

Definition holesky : Env := envOf "holesky".

(** The staking service answers with a [contract_address] of its own,
    which is not the one of the script's table. *)
Definition intentData : StakeIntentData :=
  {| ethereum :=
       Some {| unsigned_transaction := "0xdeadbeef";
               contract_address := "0xC0FFEE" |} |}.

Definition request : StakeIntentRequest :=
  {| stakes :=
       [ {| amount := "32000000000"; withdrawal_address := "0xA11CE" |} ] |}.

(** Every call succeeds; the k-th prompt gets the k-th answer of the
    list, and "no" once the list is over.  Receipts are strings. *)
Definition world (answers : list bool) : World string :=
  {| eth_getBalance := fun _ _ => Some (40 * 10 ^ 18)%N;
     prompt_confirm := fun t _ =>
       nth (List.length (confirmations t)) answers false;
     eth_sendTransaction := fun _ _ => Some "receipt";
     steak_postEthereumStakeIntent := fun _ _ _ => Some intentData |}.

(** The transaction that the staking step broadcasts on "holesky" when
    every prompt is answered "yes". *)
Definition stakingTx : Transaction :=
  {| tx_from := "0xA11CE";
     tx_to := "0x0b6e07c5ead5596c1f26ca2f6b97050cec853671";
     tx_value := "32000000000000000000";
     tx_data := Some "0xdeadbeef" |}.

End Scripted.

(** ** Reading a trace: failures and reports *)

Section Failures.

Context {Receipt : Type}.

(** An awaited call whose promise rejected. *)
Definition isRejected (e : Event Receipt) : bool :=
  match e with
  | GetBalance _ None | SendTransaction _ None
  | PostEthereumStakeIntent _ _ None => true
  | _ => false
  end.

Definition isBalanceQuery (e : Event Receipt) : bool :=
  match e with
  | GetBalance _ _ => true
  | _ => false
  end.

Definition isAuth (e : Event Receipt) : bool :=
  match e with
  | Auth _ => true
  | _ => false
  end.

(** The last prompt of a trace, with its answer. *)
Definition lastPrompt (t : Trace Receipt) : option (string * bool) :=
  List.last (map Some (confirmations t)) None.

(** The account address that a chain call names: the address whose
    balance is asked, the [from] of a transaction. *)
Definition accountOf (e : Event Receipt) : option string :=
  match e with
  | GetBalance addr _ => Some addr
  | SendTransaction tx _ => Some (tx_from tx)
  | _ => None
  end.

(** What the script logs right after an awaited call that was answered:
    the receipt of a broadcast (lines 51 and 94), the intent of the
    staking API's answer (line 79).  The balance has a line of its own
    kind and is not listed here. *)
Definition reportOf (e : Event Receipt) : option (list (LogArg Receipt)) :=
  match e with
  | SendTransaction _ (Some receipt) =>
      Some [LStr "Receipt:"; LReceipt receipt; LStr nl]
  | PostEthereumStakeIntent _ _ (Some data) =>
      Some [LStr "Intent:"; LIntent (ethereum data); LStr nl]
  | _ => None
  end.

End Failures.

(** ** Rewriting the staking API's answer

    To say which fields of the answer the script reads, the [ethereum]
    object is rewritten by a function [f] wherever a run carries it whole:
    in the recorded answer of the request and in the argument of
    [console.log("Intent:", intent, ...)]. *)

Section Rewriting.

Context {Receipt : Type}.
Variable f : EthereumIntent -> EthereumIntent.

Definition mapIntent (d : StakeIntentData) : StakeIntentData :=
  {| ethereum := option_map f (ethereum d) |}.

Definition mapLogArg (a : LogArg Receipt) : LogArg Receipt :=
  match a with
  | LIntent i => LIntent (option_map f i)
  | _ => a
  end.

Definition mapEvent (e : Event Receipt) : Event Receipt :=
  match e with
  | ConsoleLog args => ConsoleLog (map mapLogArg args)
  | PostEthereumStakeIntent body network result =>
      PostEthereumStakeIntent body network (option_map mapIntent result)
  | _ => e
  end.

Definition mapTrace (t : Trace Receipt) : Trace Receipt := map mapEvent t.

(** [w'] answers as [w] does, on the rewritten history, but for the
    staking API, whose answer is rewritten too. *)
Definition answersAlike (w w' : World Receipt) : Prop :=
  (forall t addr,
      eth_getBalance Receipt w' (mapTrace t) addr
      = eth_getBalance Receipt w t addr) /\
  (forall t prompt,
      prompt_confirm Receipt w' (mapTrace t) prompt
      = prompt_confirm Receipt w t prompt) /\
  (forall t tx,
      eth_sendTransaction Receipt w' (mapTrace t) tx
      = eth_sendTransaction Receipt w t tx) /\
  (forall t body network,
      steak_postEthereumStakeIntent Receipt w' (mapTrace t) body network
      = option_map mapIntent
          (steak_postEthereumStakeIntent Receipt w t body network)).

(** [m'] does on the rewritten history what [m] does on the history,
    with its result sent through [g]. *)
Definition follows {A : Type} (g : A -> A) (m m' : M Receipt A) : Prop :=
  forall t,
    m' (mapTrace t)
    = (match fst (m t) with
       | inl a => inl (g a)
       | inr h => inr h
       end, mapTrace (snd (m t))).

End Rewriting.

(** ** Steady surroundings *)

Module Steady.

(** Every prompt is answered "yes" and every call succeeds, whatever the
    history; the staking API answers [data]. *)
Definition world (data : StakeIntentData) : World string :=
  {| eth_getBalance := fun _ _ => Some (40 * 10 ^ 18)%N;
     prompt_confirm := fun _ _ => true;
     eth_sendTransaction := fun _ _ => Some "receipt";
     steak_postEthereumStakeIntent := fun _ _ _ => Some data |}.

(** Put the table's address for "holesky" in place of the answer's
    [contract_address]. *)
Definition setContract (i : EthereumIntent) : EthereumIntent :=
  {| unsigned_transaction := unsigned_transaction i;
     contract_address := "0x0b6e07c5ead5596c1f26ca2f6b97050cec853671" |}.

End Steady.

(** ** Scripted surroundings with failures *)

Module Faulty.

(** Externals whose wallet refuses every key. *)
Definition noWallet : Externals :=
  {| Number_toString_double := Number_toString_double Scripted.js;
     web3_wallet_add := fun _ => None;
     web3_fromWei := web3_fromWei Scripted.js;
     web3_toWei := web3_toWei Scripted.js |}.

(** Externals whose [toWei] throws on every input. *)
Definition noToWei : Externals :=
  {| Number_toString_double := Number_toString_double Scripted.js;
     web3_wallet_add := web3_wallet_add Scripted.js;
     web3_fromWei := web3_fromWei Scripted.js;
     web3_toWei := fun _ _ => None |}.

(** The k-th prompt gets the k-th answer, the k-th broadcast the k-th
    receipt (a rejection once the list is over); the balance query and
    the staking API answer as given. *)
Definition world (answers : list bool) (balance : option N)
    (receipts : list (option string)) (intent : option StakeIntentData)
    : World string :=
  {| eth_getBalance := fun _ _ => balance;
     prompt_confirm := fun t _ =>
       nth (List.length (confirmations t)) answers false;
     eth_sendTransaction := fun t _ =>
       nth (List.length (broadcasts t)) receipts None;
     steak_postEthereumStakeIntent := fun _ _ _ => intent |}.

(** The run on "holesky" in which every call succeeds and every prompt
    is answered "yes". *)
Definition allYes : Trace string :=
  trace Scripted.js Scripted.holesky (Scripted.world [true; true; true]).

(** The test transfer is accepted at the prompt and then rejected by the
    chain. *)
Definition failedTransfer : World string :=
  world [true] (Some (40 * 10 ^ 18)%N) [None] None.

Definition testTransfer : Transaction :=
  {| tx_from := "0xA11CE";
     tx_to := "0xB0B";
     tx_value := "1000000000000";
     tx_data := None |}.

End Faulty.

(** ** The generated SDK: [.api/apis/blockdaemon/index.ts]

    Every endpoint method of the class is one line,
    [return this.core.fetch(path, verb, ...its parameters)].  The model
    keeps, for each method, the path, the verb and which parameters it
    hands over, in the order of the call. *)

Module SDK.

(** The endpoint methods of the class, in the order of the file. *)
Inductive Operation : Type :=
| listCustomerPlans
| listStakeIntents
| postEthereumStakeIntent
| exitEthereumValidator
| exitEthereumValidators
| generateSignedVoluntaryExit
| generateEthereumLaunchpadDeposit
| pendingQueuedProgress
| activeExitingQueueProgress
| postSolanaStakeIntent
| postSolanaDeactivationIntent
| getSolanaDeactivationIntents
| cancelSolanaDeactivationIntent
| getSolanaDeactivatableAmount
| postSolanaWithdrawalIntent
| getSolanaWithdrawalIntents
| cancelSolanaWithdrawalIntent
| getSolanaWithdrawableAmount
| getStakeAccountsSolana
| postPolygonBootstrappingIntent
| postPolygonStakeIntent
| postPolygonDeactivationIntent
| getPolygonDeactivationIntents
| cancelPolygonDeactivationIntent
| postPolygonWithdrawalIntent
| postPolygonRewardsRestakeIntent
| postPolygonRewardsWithdrawalIntent
| postPolkadotStakeIntent
| postPolkadotDeactivateIntent
| postPolkadotWithdrawalIntent
| postCosmosStakeIntent
| postCosmosDeactivationIntent
| getCosmosDeactivationIntents
| postCosmosRewardsWithdrawalIntent
| getCosmosDeactivatableAmount
| getCosmosWithdrawableRewardsAmount
| postCosmosRestakeIntent
| getCosmosRestakeIntents
| postBinanceStakeIntent
| postBinanceDeactivationIntent
| getBinanceDeactivationIntents
| getBinanceDeactivatableAmount
| postBinanceRestakeIntent
| getBinanceRestakeIntents
| postNearStakeIntent
| postNearDeactivationIntent
| getNearDeactivationIntents
| cancelNearDeactivationIntent
| getNearDeactivatableAmount
| postNearWithdrawalIntent
| getNearWithdrawalIntents
| getNearWithdrawableAmount
| postCardanoStakeIntent
| postCardanoDeactivationIntent
| getCardanoDeactivationIntents
| postCardanoRewardsWithdrawalIntent
| getCardanoRewardsWithdrawalIntents
| submitTransaction
| postAvaxStakeIntent.

(** A parameter of an endpoint method. *)
Inductive Param : Type := body | metadata.

(** The arguments of one [this.core.fetch] call. *)
Record FetchCall : Type := fetch {
  fetch_path : string;
  fetch_verb : string;
  fetch_params : list Param
}.

Definition call (op : Operation) : FetchCall :=
  match op with
  | listCustomerPlans =>
      fetch "/v1/plans" "get" [metadata]
  | listStakeIntents =>
      fetch "/v1/stake-intents" "get" [metadata]
  | postEthereumStakeIntent =>
      fetch "/v1/ethereum/{network}/stake-intents" "post" [body; metadata]
  | exitEthereumValidator =>
      fetch "/v1/ethereum/{network}/voluntary-exit" "post" [body; metadata]
  | exitEthereumValidators =>
      fetch "/v1/ethereum/{network}/voluntary-exits" "post" [body; metadata]
  | generateSignedVoluntaryExit =>
      fetch "/v1/ethereum/{network}/signed-voluntary-exit" "get" [metadata]
  | generateEthereumLaunchpadDeposit =>
      fetch "/v1/eth2-launchpad-deposit" "post" [body]
  | pendingQueuedProgress =>
      fetch "/v1/ethereum/{network}/queue-progress/pending-queued" "post" [body; metadata]
  | activeExitingQueueProgress =>
      fetch "/v1/ethereum/{network}/queue-progress/active-exiting" "post" [body; metadata]
  | postSolanaStakeIntent =>
      fetch "/v1/solana/{network}/stake-intents" "post" [body; metadata]
  | postSolanaDeactivationIntent =>
      fetch "/v1/solana/{network}/deactivation-intents" "post" [body; metadata]
  | getSolanaDeactivationIntents =>
      fetch "/v1/solana/{network}/deactivation-intents" "get" [metadata]
  | cancelSolanaDeactivationIntent =>
      fetch "/v1/solana/{network}/deactivation-intents" "put" [body; metadata]
  | getSolanaDeactivatableAmount =>
      fetch "/v1/solana/{network}/deactivatable-amount" "get" [metadata]
  | postSolanaWithdrawalIntent =>
      fetch "/v1/solana/{network}/withdrawal-intents" "post" [body; metadata]
  | getSolanaWithdrawalIntents =>
      fetch "/v1/solana/{network}/withdrawal-intents" "get" [metadata]
  | cancelSolanaWithdrawalIntent =>
      fetch "/v1/solana/{network}/withdrawal-intents" "put" [body; metadata]
  | getSolanaWithdrawableAmount =>
      fetch "/v1/solana/{network}/withdrawable-amount" "get" [metadata]
  | getStakeAccountsSolana =>
      fetch "/v1/solana/{network}/stake-accounts" "get" [metadata]
  | postPolygonBootstrappingIntent =>
      fetch "/v1/polygon/{network}/bootstrapping-intents" "post" [body; metadata]
  | postPolygonStakeIntent =>
      fetch "/v1/polygon/{network}/stake-intents" "post" [body; metadata]
  | postPolygonDeactivationIntent =>
      fetch "/v1/polygon/{network}/deactivation-intents" "post" [body; metadata]
  | getPolygonDeactivationIntents =>
      fetch "/v1/polygon/{network}/deactivation-intents" "get" [metadata]
  | cancelPolygonDeactivationIntent =>
      fetch "/v1/polygon/{network}/deactivation-intents" "put" [body; metadata]
  | postPolygonWithdrawalIntent =>
      fetch "/v1/polygon/{network}/withdrawal-intents" "post" [body; metadata]
  | postPolygonRewardsRestakeIntent =>
      fetch "/v1/polygon/{network}/rewards/restake-intents" "post" [body; metadata]
  | postPolygonRewardsWithdrawalIntent =>
      fetch "/v1/polygon/{network}/rewards/withdrawal-intents" "post" [body; metadata]
  | postPolkadotStakeIntent =>
      fetch "/v1/polkadot/{network}/stake-intents" "post" [body; metadata]
  | postPolkadotDeactivateIntent =>
      fetch "/v1/polkadot/{network}/deactivation-intents" "post" [body; metadata]
  | postPolkadotWithdrawalIntent =>
      fetch "/v1/polkadot/{network}/withdrawal-intents" "post" [body; metadata]
  | postCosmosStakeIntent =>
      fetch "/v1/cosmos/{network}/stake-intents" "post" [body; metadata]
  | postCosmosDeactivationIntent =>
      fetch "/v1/cosmos/{network}/deactivation-intents" "post" [body; metadata]
  | getCosmosDeactivationIntents =>
      fetch "/v1/cosmos/{network}/deactivation-intents" "get" [metadata]
  | postCosmosRewardsWithdrawalIntent =>
      fetch "/v1/cosmos/{network}/rewards/withdrawal-intents" "post" [body; metadata]
  | getCosmosDeactivatableAmount =>
      fetch "/v1/cosmos/{network}/deactivatable-amount" "get" [metadata]
  | getCosmosWithdrawableRewardsAmount =>
      fetch "/v1/cosmos/{network}/rewards/withdrawable-amount" "get" [metadata]
  | postCosmosRestakeIntent =>
      fetch "/v1/cosmos/{network}/restake-intents" "post" [body; metadata]
  | getCosmosRestakeIntents =>
      fetch "/v1/cosmos/{network}/restake-intents" "get" [metadata]
  | postBinanceStakeIntent =>
      fetch "/v1/binance/{network}/stake-intents" "post" [body; metadata]
  | postBinanceDeactivationIntent =>
      fetch "/v1/binance/{network}/deactivation-intents" "post" [body; metadata]
  | getBinanceDeactivationIntents =>
      fetch "/v1/binance/{network}/deactivation-intents" "get" [metadata]
  | getBinanceDeactivatableAmount =>
      fetch "/v1/binance/{network}/deactivatable-amount" "get" [metadata]
  | postBinanceRestakeIntent =>
      fetch "/v1/binance/{network}/restake-intents" "post" [body; metadata]
  | getBinanceRestakeIntents =>
      fetch "/v1/binance/{network}/restake-intents" "get" [metadata]
  | postNearStakeIntent =>
      fetch "/v1/near/{network}/stake-intents" "post" [body; metadata]
  | postNearDeactivationIntent =>
      fetch "/v1/near/{network}/deactivation-intents" "post" [body; metadata]
  | getNearDeactivationIntents =>
      fetch "/v1/near/{network}/deactivation-intents" "get" [metadata]
  | cancelNearDeactivationIntent =>
      fetch "/v1/near/{network}/deactivation-intents" "put" [body; metadata]
  | getNearDeactivatableAmount =>
      fetch "/v1/near/{network}/deactivatable-amount" "get" [metadata]
  | postNearWithdrawalIntent =>
      fetch "/v1/near/{network}/withdrawal-intents" "post" [body; metadata]
  | getNearWithdrawalIntents =>
      fetch "/v1/near/{network}/withdrawal-intents" "get" [metadata]
  | getNearWithdrawableAmount =>
      fetch "/v1/near/{network}/withdrawable-amount" "get" [metadata]
  | postCardanoStakeIntent =>
      fetch "/v1/cardano/{network}/stake-intents" "post" [body; metadata]
  | postCardanoDeactivationIntent =>
      fetch "/v1/cardano/{network}/deactivation-intents" "post" [body; metadata]
  | getCardanoDeactivationIntents =>
      fetch "/v1/cardano/{network}/deactivation-intents" "get" [metadata]
  | postCardanoRewardsWithdrawalIntent =>
      fetch "/v1/cardano/{network}/rewards/withdrawal-intents" "post" [body; metadata]
  | getCardanoRewardsWithdrawalIntents =>
      fetch "/v1/cardano/{network}/rewards/withdrawal-intents" "get" [metadata]
  | submitTransaction =>
      fetch "/v1/cardano/{network}/transaction-submission" "post" [body; metadata]
  | postAvaxStakeIntent =>
      fetch "/v1/avalanche/{network}/stake-intents" "post" [body; metadata]
  end.

(** Two methods reach the same endpoint: same path, same verb. *)
Definition sameEndpoint (a b : Operation) : bool :=
  (fetch_path (call a) =? fetch_path (call b))%string
  && (fetch_verb (call a) =? fetch_verb (call b))%string.

(** The path has the [{network}] placeholder. *)
Definition hasNetworkPlaceholder (path : string) : bool :=
  match String.index 0 "{network}" path with
  | Some _ => true
  | None => false
  end.

Definition passes (p : Param) (op : Operation) : bool :=
  existsb (fun q => match p, q with
                    | body, body | metadata, metadata => true
                    | _, _ => false
                    end) (fetch_params (call op)).

End SDK.

(** ** Proof steps for runs *)

(** Unfold the script down to its oracles. *)
Ltac unfold_run :=
  cbv beta iota zeta delta
    [outcome trace run bind ret emit orThrow throw await process_exit
     console_log confirm getBalance sendTransaction steak_auth
     postEthereumStakeIntent resolveContract fst snd app negb].

(** Split on the answer of the next oracle that the run waits for. *)
Ltac branch :=
  match goal with
  | |- context [selectContract ?n] =>
      let E := fresh "Enet" in destruct (selectContract n) eqn:E
  | |- context [web3_wallet_add ?j ?k] =>
      let E := fresh "Ekey" in destruct (web3_wallet_add j k) eqn:E
  | |- context [eth_getBalance ?R ?w ?t ?a] =>
      let E := fresh "Ebal" in destruct (eth_getBalance R w t a) eqn:E
  | |- context [web3_fromWei ?j ?s ?u] =>
      let E := fresh "Efrom" in destruct (web3_fromWei j s u) eqn:E
  | |- context [web3_toWei ?j ?x ?u] =>
      let E := fresh "Eto" in destruct (web3_toWei j x u) eqn:E
  | |- context [prompt_confirm ?R ?w ?t ?p] =>
      let E := fresh "Eask" in destruct (prompt_confirm R w t p) eqn:E
  | |- context [eth_sendTransaction ?R ?w ?t ?x] =>
      let E := fresh "Esend" in destruct (eth_sendTransaction R w t x) eqn:E
  | |- context [steak_postEthereumStakeIntent ?R ?w ?t ?b ?n] =>
      let E := fresh "Epost" in
      destruct (steak_postEthereumStakeIntent R w t b n) eqn:E
  end.

Ltac run_cases := unfold_run; repeat (branch; unfold_run).

(** Find where in a concrete trace the event of [H] sits. *)
Ltac position i H :=
  repeat (destruct i as [|i]; cbn [nth_error] in H; try discriminate H).

(** ** Unit conversion: examples *)

Example fromWei_deposit :
  Units.fromWei "32000000000" ether = Some "0.000000032".
Proof. reflexivity. Qed.

Example fromWei_deposit_gwei :
  Units.fromWei "32000000000" gwei = Some "32".
Proof. reflexivity. Qed.

Example toWei_deposit :
  Units.toWei "0.000000032" ether = Some "32000000000".
Proof. reflexivity. Qed.

Example fromWei_one :
  Units.fromWei "1" ether = Some "0.000000000000000001".
Proof. reflexivity. Qed.

Example toWei_mixed :
  Units.toWei "12.5" gwei = Some "12500000000".
Proof. reflexivity. Qed.

(** ** Unit conversion: the round trip *)

Module UnitsFacts.
Import Units.

Lemma to_uint_nonnil (n : N) : N.to_uint n <> Decimal.Nil.
Proof.
  destruct n as [|p]; simpl.
  - discriminate.
  - apply DecimalPos.Unsigned.to_uint_nonnil.
Qed.

Lemma parseNat_toString (n : N) : parseNat (BigInt_toString n) = Some n.
Proof.
  unfold parseNat, BigInt_toString.
  pose proof (NilZero.usu (N.to_uint n) (to_uint_nonnil n)) as H.
  assert (E : NilZero.string_of_uint (N.to_uint n)
              = NilEmpty.string_of_uint (N.to_uint n)).
  { destruct (N.to_uint n) eqn:D; try reflexivity.
    exfalso. now apply (to_uint_nonnil n). }
  rewrite E in H. rewrite H. simpl.
  now rewrite DecimalN.Unsigned.of_to.
Qed.

Lemma splitPoint_digits (d : Decimal.uint) (f : string) :
  splitPoint (NilEmpty.string_of_uint d ++ String "." f)
  = (NilEmpty.string_of_uint d, Some f).
Proof.
  induction d; cbn [NilEmpty.string_of_uint append splitPoint];
    try rewrite IHd; reflexivity.
Qed.

Lemma splitPoint_integer (d : Decimal.uint) :
  splitPoint (NilEmpty.string_of_uint d)
  = (NilEmpty.string_of_uint d, None).
Proof.
  induction d; cbn [NilEmpty.string_of_uint splitPoint];
    try rewrite IHd; reflexivity.
Qed.

Lemma pow10_pos (k : nat) : (0 < pow10 k)%N.
Proof. unfold pow10. apply N.neq_0_lt_0, N.pow_nonzero. discriminate. Qed.

Lemma pow10_succ (k : nat) : pow10 (S k) = (10 * pow10 k)%N.
Proof.
  unfold pow10. rewrite Nat2N.inj_succ, N.pow_succ_r; [reflexivity|].
  apply N.le_0_l.
Qed.

Lemma charDigit_digitChar (d : N) :
  (d < 10)%N -> charDigit (digitChar d) = Some d.
Proof.
  intros H. unfold charDigit, digitChar.
  rewrite N_ascii_embedding by lia.
  replace (48 <=? 48 + d)%N with true by (symmetry; apply N.leb_le; lia).
  replace (48 + d <=? 57)%N with true by (symmetry; apply N.leb_le; lia).
  cbn [andb]. f_equal. lia.
Qed.

Lemma charDigit_zero (c : ascii) :
  (c =? "0")%char = true -> charDigit c = Some 0%N.
Proof. intros H. apply Ascii.eqb_eq in H. now subst. Qed.

Lemma fractionValue_fixedDigits (k : nat) :
  forall r, (r < pow10 k)%N -> fractionValue k (fixedDigits k r) = Some r.
Proof.
  induction k as [|k IH]; intros r Hr.
  - unfold pow10 in Hr. simpl in *. f_equal. lia.
  - pose proof (pow10_pos k) as Hp.
    rewrite pow10_succ in Hr.
    cbn [fixedDigits fractionValue].
    rewrite charDigit_digitChar
      by (apply N.Div0.div_lt_upper_bound; lia).
    rewrite IH by (apply N.mod_lt; lia).
    f_equal.
    rewrite (N.div_mod r (pow10 k)) at 3 by lia. lia.
Qed.

Lemma fractionValue_strip (s : string) :
  forall k v, fractionValue k s = Some v ->
              fractionValue k (stripTrailingZeros s) = Some v.
Proof.
  induction s as [|c s IH]; intros k v H.
  - exact H.
  - destruct k as [|k]; [discriminate|].
    cbn [fractionValue] in H.
    destruct (charDigit c) as [d|] eqn:Hc; [|discriminate].
    destruct (fractionValue k s) as [v'|] eqn:Hs; [|discriminate].
    injection H as <-.
    specialize (IH k v' Hs).
    cbn [stripTrailingZeros].
    destruct (stripTrailingZeros s) as [|c' r].
    + cbn [fractionValue] in IH. injection IH as <-.
      destruct (c =? "0")%char eqn:Hz.
      * rewrite (charDigit_zero c Hz) in Hc. injection Hc as <-.
        reflexivity.
      * cbn [fractionValue]. now rewrite Hc.
    + change (fractionValue (S k) (String c (String c' r)))
        with (match charDigit c, fractionValue k (String c' r) with
              | Some d0, Some v0 => Some (d0 * pow10 k + v0)%N
              | _, _ => None
              end).
      now rewrite Hc, IH.
Qed.

Lemma weiOf_render (n : N) (u : EtherUnit) : weiOf (render n u) u = Some n.
Proof.
  unfold weiOf, render.
  set (k := decimals u).
  pose proof (pow10_pos k) as Hp.
  assert (Hf : fractionValue k
                 (stripTrailingZeros (fixedDigits k (n mod pow10 k)))
               = Some (n mod pow10 k)%N).
  { apply fractionValue_strip, fractionValue_fixedDigits.
    apply N.mod_lt. lia. }
  assert (Hn : (n / pow10 k * pow10 k + n mod pow10 k)%N = n).
  { rewrite (N.div_mod n (pow10 k)) at 3 by lia. lia. }
  destruct (stripTrailingZeros (fixedDigits k (n mod pow10 k)))
    as [|c f].
  - unfold BigInt_toString at 1. rewrite splitPoint_integer.
    fold (BigInt_toString (n / pow10 k)).
    rewrite parseNat_toString.
    cbn [fractionValue] in Hf |- *. injection Hf as Hf.
    f_equal. lia.
  - unfold BigInt_toString at 1.
    change ("." ++ String c f) with (String "." (String c f)).
    rewrite splitPoint_digits.
    fold (BigInt_toString (n / pow10 k)).
    rewrite parseNat_toString, Hf. f_equal. exact Hn.
Qed.

End UnitsFacts.

(** ** Runs of the script *)

Lemma selectContract_unknown (network : string) :
  network <> "mainnet" -> network <> "holesky" ->
  selectContract network = None.
Proof.
  intros Hm Hh. unfold selectContract.
  apply String.eqb_neq in Hm, Hh. now rewrite Hm, Hh.
Qed.

(** ** Rewriting the answer: the run follows *)

Section Simulation.

Context {Receipt : Type}.
Variable f : EthereumIntent -> EthereumIntent.
Hypothesis f_keeps :
  forall i, unsigned_transaction (f i) = unsigned_transaction i.
Variables w w' : World Receipt.
Hypothesis alike : answersAlike f w w'.

Lemma mapTrace_snoc (t : Trace Receipt) (e : Event Receipt) :
  mapTrace f (t ++ [e])%list = (mapTrace f t ++ [mapEvent f e])%list.
Proof. unfold mapTrace. now rewrite map_app. Qed.

Lemma follows_bind {A B : Type} (g : A -> A) (h : B -> B)
    (m m' : M Receipt A) (k k' : A -> M Receipt B) :
  follows f g m m' ->
  (forall a, follows f h (k a) (k' (g a))) ->
  follows f h (bind m k) (bind m' k').
Proof.
  intros Hm Hk t. unfold bind. rewrite (Hm t).
  destruct (m t) as [[a|halt] t1]; cbn [fst snd].
  - apply Hk.
  - reflexivity.
Qed.

Lemma follows_ret {A : Type} (g : A -> A) (a : A) :
  follows (Receipt := Receipt) f g (ret a) (ret (g a)).
Proof. intros t. reflexivity. Qed.

Lemma follows_emit (e : Event Receipt) :
  follows f (fun x => x) (emit e) (emit (mapEvent f e)).
Proof. intros t. unfold emit. cbn [fst snd]. now rewrite mapTrace_snoc. Qed.

Lemma follows_exit {A : Type} (g : A -> A) (code : Z) :
  follows (Receipt := Receipt) f g (process_exit code) (process_exit code).
Proof. intros t. reflexivity. Qed.

Lemma follows_orThrow {A : Type} (o : option A) :
  follows (Receipt := Receipt) f (fun x => x) (orThrow o) (orThrow o).
Proof. intros t. destruct o; reflexivity. Qed.

Lemma follows_confirm (prompt : string) :
  follows f (fun x => x) (confirm w prompt) (confirm w' prompt).
Proof.
  intros t. unfold confirm. cbn [fst snd].
  rewrite mapTrace_snoc. destruct alike as (_ & -> & _). reflexivity.
Qed.

Lemma follows_getBalance (addr : string) :
  follows f (fun x => x) (getBalance w addr) (getBalance w' addr).
Proof.
  intros t. unfold getBalance, await. cbn [fst snd].
  rewrite mapTrace_snoc. destruct alike as (-> & _).
  now destruct (eth_getBalance Receipt w t addr).
Qed.

Lemma follows_sendTransaction (tx : Transaction) :
  follows f (fun x => x) (sendTransaction w tx) (sendTransaction w' tx).
Proof.
  intros t. unfold sendTransaction, await. cbn [fst snd].
  rewrite mapTrace_snoc. destruct alike as (_ & _ & -> & _).
  now destruct (eth_sendTransaction Receipt w t tx).
Qed.

Lemma follows_postEthereumStakeIntent (body : StakeIntentRequest)
    (network : string) :
  follows f (mapIntent f)
    (postEthereumStakeIntent w body network)
    (postEthereumStakeIntent w' body network).
Proof.
  intros t. unfold postEthereumStakeIntent, await. cbn [fst snd].
  rewrite mapTrace_snoc. destruct alike as (_ & _ & _ & ->).
  now destruct (steak_postEthereumStakeIntent Receipt w t body network).
Qed.

Lemma follows_resolveContract (env : Env) :
  follows (Receipt := Receipt) f (fun x => x)
    (resolveContract env) (resolveContract env).
Proof.
  unfold resolveContract. destruct (selectContract (NETWORK env)).
  - apply follows_ret.
  - eapply follows_bind; [apply follows_emit | intros _].
    apply follows_exit.
Qed.

Lemma run_follows (js : Externals) (env : Env) :
  follows f (fun x => x) (run js env w) (run js env w').
Proof.
  unfold run.
  eapply follows_bind; [apply follows_emit | intros _; cbv beta].
  eapply follows_bind;
    [apply follows_resolveContract | intros contractAddr; cbv beta].
  eapply follows_bind; [apply follows_orThrow | intros sender; cbv beta].
  eapply follows_bind; [apply follows_emit | intros _; cbv beta].
  eapply follows_bind; [apply follows_getBalance | intros balWei; cbv beta].
  eapply follows_bind; [apply follows_orThrow | intros balance; cbv beta].
  eapply follows_bind; [apply follows_emit | intros _; cbv beta].
  eapply follows_bind; [apply follows_confirm | intros shouldSend; cbv beta].
  eapply (follows_bind (fun x => x)); [ | intros _; cbv beta ].
  { destruct shouldSend.
    - eapply follows_bind; [apply follows_emit | intros _; cbv beta].
      eapply follows_bind; [apply follows_orThrow | intros value; cbv beta].
      eapply follows_bind;
        [apply follows_sendTransaction | intros receipt; cbv beta].
      apply follows_emit.
    - apply (follows_ret (fun x => x)). }
  eapply follows_bind; [apply follows_emit | intros _; cbv beta].
  eapply follows_bind; [apply follows_emit | intros _; cbv beta].
  eapply follows_bind;
    [apply follows_confirm | intros shouldCreateUnsigned; cbv beta].
  eapply (follows_bind (fun x => x)); [ | intros _; cbv beta ].
  { destruct shouldCreateUnsigned; cbn [negb];
      [apply (follows_ret (fun x => x)) | apply follows_exit]. }
  eapply follows_bind; [apply follows_emit | intros _; cbv beta].
  eapply follows_bind;
    [apply follows_postEthereumStakeIntent | intros data; cbv beta].
  eapply follows_bind; [apply follows_emit | intros _; cbv beta].
  eapply follows_bind;
    [apply follows_confirm | intros shouldSignAndSend; cbv beta].
  eapply (follows_bind (fun x => x)); [ | intros _; cbv beta ].
  { destruct shouldSignAndSend; cbn [negb];
      [apply (follows_ret (fun x => x)) | apply follows_exit]. }
  eapply follows_bind; [apply follows_emit | intros _; cbv beta].
  eapply follows_bind; [apply follows_orThrow | intros value; cbv beta].
  replace (option_map unsigned_transaction (ethereum (mapIntent f data)))
    with (option_map unsigned_transaction (ethereum data))
    by (destruct data as [[i|]]; cbn; [now rewrite f_keeps | reflexivity]).
  eapply follows_bind;
    [apply follows_sendTransaction | intros receipt; cbv beta].
  apply follows_emit.
Qed.

End Simulation.

Section RunFacts.

Context {Receipt : Type}.
Variable js : Externals.
Variable env : Env.
Variable w : World Receipt.

(** C1. Whenever [NETWORK] is neither "mainnet" nor "holesky", the run
    prints the banner and the diagnostic, ends with [process.exit(0)],
    and its trace has no network call: no balance query, no broadcast,
    no staking API request. *)
Theorem unsupported_network_exits_clean :
  NETWORK env <> "mainnet" ->
  NETWORK env <> "holesky" ->
  outcome js env w = inr (Exit 0) /\
  trace js env w
  = [ConsoleLog [LStr banner]; ConsoleLog [LStr (unsupportedMessage env)]] /\
  forallb (fun e => negb (isNetworkCall e)) (trace js env w) = true.
Proof.
  intros Hm Hh.
  pose proof (selectContract_unknown _ Hm Hh) as Hnone.
  unfold_run. rewrite Hnone. unfold_run.
  repeat split.
Qed.

(** C3. Every stake-intent request found in the trace of a run has
    exactly one stake; its amount is the decimal numeral of 32 * 10^9,
    which is "32000000000", and its withdrawal address is the address
    string of the sender's account. *)
Theorem stake_intent_request_shape :
  forall body network result,
    In (PostEthereumStakeIntent body network result) (trace js env w) ->
    exists sender,
      web3_wallet_add js (PRIVATE_KEY env) = Some sender /\
      stakes body
      = [ {| amount := BigInt_toString (32 * 10 ^ 9);
             withdrawal_address := address sender |} ] /\
      BigInt_toString (32 * 10 ^ 9) = "32000000000".
Proof.
  intros body network result.
  run_cases; intros H; cbn [In] in H.
  all: repeat (destruct H as [H|H]; [try discriminate H|]);
    try contradiction.
  all: injection H as <- _ _; eexists; repeat split.
Qed.

(** C6. In every run, a staking API request at position [i] of the
    trace comes after a balance query that was answered. *)
Theorem balance_query_precedes_stake_intent :
  forall i body network result,
    nth_error (trace js env w) i
    = Some (PostEthereumStakeIntent body network result) ->
    exists j addr bal,
      (j < i)%nat /\
      nth_error (trace js env w) j = Some (GetBalance addr (Some bal)).
Proof.
  intros i body network result.
  run_cases; intros H; position i H.
  all: exists 2%nat; do 2 eexists; split; [lia | reflexivity].
Qed.


(** C5. When the create-intent prompt (the second prompt, [k = 1]) or
    the sign-and-send prompt (the third, [k = 2]) is answered "no", the
    run ends there with [process.exit(0)]: the declined prompt is the
    last event.  In the first case the staking step holds no network
    call at all and the whole trace holds no staking API request; in the
    second the staking step holds no broadcast.  In both cases the only
    broadcast the trace can hold is the test transfer: it comes right
    after a "yes" to the test-transfer prompt, goes to [RECEIVER_ADDRESS]
    and carries no data, and there is at most one. *)
Theorem declined_staking_prompt_exits_clean :
  forall k p,
    (k = 1 \/ k = 2)%nat ->
    nth_error (confirmations (trace js env w)) k = Some (p, false) ->
    outcome js env w = inr (Exit 0) /\
    final (trace js env w) = Some (Confirm p false) /\
    (k = 1%nat ->
     (exists contractAddr,
         selectContract (NETWORK env) = Some contractAddr /\
         p = createPrompt env contractAddr) /\
     forallb (fun e => negb (isNetworkCall e))
       (stakingStep (trace js env w)) = true) /\
    (k = 2%nat ->
     p = signPrompt /\
     forallb (fun e => negb (isSendTransaction e))
       (stakingStep (trace js env w)) = true) /\
    (k = 1%nat -> filter isStakeIntentCall (trace js env w) = []) /\
    (List.length (broadcasts (trace js env w)) <= 1)%nat /\
    (forall i tx r,
        nth_error (trace js env w) i = Some (SendTransaction tx r) ->
        lastPrompt (firstn i (trace js env w))
        = Some (sendPrompt js env, true) /\
        tx_to tx = RECEIVER_ADDRESS env /\
        tx_data tx = None).
Proof.
  intros k p Hk.
  run_cases; cbn [confirmations nth_error]; intros H.
  all: destruct Hk as [-> | ->]; cbn [nth_error] in H;
    try discriminate H.
  all: injection H as <-.
  all: split; [reflexivity|]; split; [reflexivity|].
  all: split;
    [intros K; (discriminate K || (split; [eauto | reflexivity]))|].
  all: split; [intros K; (discriminate K || (split; reflexivity))|].
  all: split; [intros K; (discriminate K || reflexivity)|].
  all: split; [cbv [broadcasts filter isSendTransaction List.length]; lia|].
  all: intros i tx0 r0 Hi; position i Hi.
  all: injection Hi as <- _; repeat split.
Qed.

(** C8, as amended. A run that reaches the last line of the script has
    shown exactly three prompts: the test-transfer prompt, whatever its
    answer, then the create-intent prompt and the sign-and-send prompt,
    both answered "yes". *)
Theorem complete_run_shows_three_prompts :
  outcome js env w = inl tt ->
  List.length (confirmations (trace js env w)) = 3%nat /\
  exists contractAddr answer,
    selectContract (NETWORK env) = Some contractAddr /\
    confirmations (trace js env w)
    = [(sendPrompt js env, answer);
       (createPrompt env contractAddr, true);
       (signPrompt, true)].
Proof.
  run_cases; cbn [confirmations List.length]; intros H;
    try discriminate H.
  all: split; [reflexivity | do 2 eexists; split; reflexivity].
Qed.

(** C9. A transaction broadcast in the staking step is built from the
    sender's address, the address that the static table gives for
    [NETWORK], the value [toWei(amountInGwei, "gwei")] and, as data, the
    [unsigned_transaction] of the [ethereum] object of the staking API's
    answer (nothing when that object is absent): the recipient is the
    table's address whatever the answer's [contract_address] is.  And
    [unsigned_transaction] is the only field of the answer that the script
    reads: when the [ethereum] object of the answer is changed in any way
    that keeps [unsigned_transaction], in surroundings that answer alike,
    the run ends the same way and its trace is the same, event for event,
    but for the object itself where the run carries it whole, in the
    recorded answer and in the log of the intent. *)
Theorem staking_transaction_built_from_table :
  (forall tx r,
      In (SendTransaction tx r) (stakingStep (trace js env w)) ->
      exists sender contractAddr value body data,
        web3_wallet_add js (PRIVATE_KEY env) = Some sender /\
        selectContract (NETWORK env) = Some contractAddr /\
        web3_toWei js amountInGwei gwei = Some value /\
        In (PostEthereumStakeIntent body (NETWORK env) (Some data))
          (stakingStep (trace js env w)) /\
        tx = {| tx_from := address sender;
                tx_to := contractAddr;
                tx_value := value;
                tx_data := option_map unsigned_transaction (ethereum data) |}) /\
  (forall (f : EthereumIntent -> EthereumIntent) (w' : World Receipt),
      (forall i, unsigned_transaction (f i) = unsigned_transaction i) ->
      answersAlike f w w' ->
      outcome js env w' = outcome js env w /\
      trace js env w' = mapTrace f (trace js env w)).
Proof.
  split.
  - intros tx r.
    run_cases; cbn [stakingStep In]; intros H.
    all: repeat (destruct H as [H|H]; [try discriminate H|]);
      try contradiction.
    all: injection H as <- _.
    all: do 5 eexists; repeat split; cbn [In]; auto 10.
  - intros f w' Hf Halike.
    pose proof (run_follows f Hf w w' Halike js env []) as H.
    unfold outcome, trace. cbn [mapTrace map] in H. rewrite H.
    cbn [fst snd]. split; [|reflexivity].
    now destruct (fst (run js env w [])).
Qed.

End RunFacts.

(** ** The static table *)

(** C7. The table has two entries and no other: "mainnet" gives
    0x3f124c700fb5e741f128e28985267d44f56b242f, "holesky" gives
    0x0b6e07c5ead5596c1f26ca2f6b97050cec853671, and any other identifier
    gives nothing.  The address depends on the identifier alone. *)
Theorem selectContract_table :
  forall network addr,
    selectContract network = Some addr <->
    (network = "mainnet" /\
     addr = "0x3f124c700fb5e741f128e28985267d44f56b242f") \/
    (network = "holesky" /\
     addr = "0x0b6e07c5ead5596c1f26ca2f6b97050cec853671").
Proof.
  intros network addr. unfold selectContract.
  destruct (String.eqb_spec network "mainnet") as [-> | Hm].
  - split.
    + intros [= <-]. now left.
    + intros [[_ ->] | [H _]]; [reflexivity | discriminate H].
  - destruct (String.eqb_spec network "holesky") as [-> | Hh].
    + split.
      * intros [= <-]. now right.
      * intros [[H _] | [_ ->]]; [discriminate H | reflexivity].
    + split.
      * discriminate.
      * intros [[H _] | [H _]]; contradiction.
Qed.

(** ** Unit conversion *)

(** C2. For every amount [n] of wei and every unit [u] (wei, gwei,
    ether), writing the numeral of [n] in unit [u] with [fromWei] and
    reading the result back with [toWei] gives the numeral of [n] again. *)
Theorem fromWei_toWei_round_trip :
  forall (n : N) (u : EtherUnit),
    match Units.fromWei (BigInt_toString n) u with
    | Some shown => Units.toWei shown u
    | None => None
    end = Some (BigInt_toString n).
Proof.
  intros n u. unfold Units.fromWei, Units.toWei.
  rewrite UnitsFacts.parseNat_toString, UnitsFacts.weiOf_render.
  reflexivity.
Qed.

(** ** The two amounts of the script *)

(** The literal [0.000001] is the double nearest to 10^-6, and it is not
    10^-6: what [toWei] makes of it depends on how the number is turned
    into decimal digits before it is scaled. *)
Lemma amountInETH_nearest : isNearestDouble amountInETH 1 (10 ^ 6).
Proof. unfold isNearestDouble, amountInETH. vm_compute. intuition discriminate. Qed.

Lemma amountInETH_inexact : ~ isRational amountInETH 1 (10 ^ 6).
Proof. unfold isRational, amountInETH. vm_compute. discriminate. Qed.

Lemma amountInGwei_safe :
  amountInGwei = Int 32000000000 /\ (32000000000 <= MAX_SAFE_INTEGER)%Z.
Proof. split; [reflexivity | vm_compute; discriminate]. Qed.

(** Once the double is shown as [0.000001], the conversion as modelled
    gives 10^12 wei; the deposit of 32 * 10^9 gwei is 32 * 10^18 wei. *)
Example toWei_test_transfer :
  Units.toWei "0.000001" ether = Some "1000000000000".
Proof. reflexivity. Qed.

Example toWei_deposit_gwei :
  Units.toWei (Int_toString (32 * 10 ^ 9)) gwei
  = Some "32000000000000000000".
Proof. reflexivity. Qed.

(** ** Runs on scripted surroundings *)

Module Runs.
Import Scripted.

(** On "holesky" with both prompts declined: the sender line, the balance
    line, no transfer, no intent, and the exit after the second "no". *)
Example holesky_no_no :
  outcome js holesky (world [false; false]) = inr (Exit 0) /\
  trace js holesky (world [false; false])
  = [ConsoleLog [LStr banner];
     ConsoleLog [LStr "Sender Address:"; LStr "0xA11CE"; LStr nl];
     GetBalance "0xA11CE" (Some (40 * 10 ^ 18)%N);
     ConsoleLog [LStr (balanceLine "40")];
     Confirm (sendPrompt js holesky) false;
     ConsoleLog [LStr steakBanner];
     Auth "stake-key";
     Confirm
       (createPrompt holesky "0x0b6e07c5ead5596c1f26ca2f6b97050cec853671")
       false].
Proof. split; reflexivity. Qed.

Lemma unsupported_network_exits_clean_witness :
  NETWORK (envOf "unknown") <> "mainnet" /\
  NETWORK (envOf "unknown") <> "holesky" /\
  outcome js (envOf "unknown") (world []) = inr (Exit 0) /\
  trace js (envOf "unknown") (world [])
  = [ConsoleLog [LStr banner];
     ConsoleLog [LStr "Network unknown not supported"]] /\
  forallb (fun e => negb (isNetworkCall e))
    (trace js (envOf "unknown") (world [])) = true.
Proof.
  split; [apply String.eqb_neq; reflexivity|].
  split; [apply String.eqb_neq; reflexivity|].
  apply (unsupported_network_exits_clean js (envOf "unknown") (world []));
    apply String.eqb_neq; reflexivity.
Defined.

Lemma stake_intent_request_shape_witness :
  In (PostEthereumStakeIntent request "holesky" (Some intentData))
    (trace js holesky (world [false; true; false])) /\
  exists sender,
    web3_wallet_add js (PRIVATE_KEY holesky) = Some sender /\
    stakes request
    = [ {| amount := BigInt_toString (32 * 10 ^ 9);
           withdrawal_address := address sender |} ] /\
    BigInt_toString (32 * 10 ^ 9) = "32000000000".
Proof.
  split.
  - vm_compute. do 9 right. left. reflexivity.
  - apply (stake_intent_request_shape js holesky
             (world [false; true; false])
             request "holesky" (Some intentData)).
    vm_compute. do 9 right. left. reflexivity.
Defined.

Lemma balance_query_precedes_stake_intent_witness :
  nth_error (trace js holesky (world [true; true; true])) 12
  = Some (PostEthereumStakeIntent request "holesky" (Some intentData)) /\
  exists j addr bal,
    (j < 12)%nat /\
    nth_error (trace js holesky (world [true; true; true])) j
    = Some (GetBalance addr (Some bal)).
Proof.
  split.
  - reflexivity.
  - apply (balance_query_precedes_stake_intent js holesky
             (world [true; true; true])
             12 request "holesky" (Some intentData)).
    reflexivity.
Defined.


Lemma declined_staking_prompt_exits_clean_witness :
  (nth_error (confirmations (trace js holesky (world [true; false]))) 1
   = Some (createPrompt holesky
             "0x0b6e07c5ead5596c1f26ca2f6b97050cec853671", false) /\
   outcome js holesky (world [true; false]) = inr (Exit 0) /\
   forallb (fun e => negb (isNetworkCall e))
     (stakingStep (trace js holesky (world [true; false]))) = true /\
   filter isStakeIntentCall (trace js holesky (world [true; false])) = [] /\
   (List.length (broadcasts (trace js holesky (world [true; false]))) <= 1)%nat) /\
  (nth_error
     (confirmations (trace js holesky (world [false; true; false]))) 2
   = Some (signPrompt, false) /\
   outcome js holesky (world [false; true; false]) = inr (Exit 0) /\
   forallb (fun e => negb (isSendTransaction e))
     (stakingStep (trace js holesky (world [false; true; false]))) = true /\
   (List.length
      (broadcasts (trace js holesky (world [false; true; false]))) <= 1)%nat).
Proof.
  split.
  - split; [reflexivity|].
    destruct (declined_staking_prompt_exits_clean js holesky
                (world [true; false]) 1
                (createPrompt holesky
                   "0x0b6e07c5ead5596c1f26ca2f6b97050cec853671")
                (or_introl eq_refl) eq_refl)
      as (Hexit & _ & Hcreate & _ & Hnone & Hone & _).
    split; [exact Hexit|].
    split; [exact (proj2 (Hcreate eq_refl))|].
    split; [exact (Hnone eq_refl) | exact Hone].
  - split; [reflexivity|].
    destruct (declined_staking_prompt_exits_clean js holesky
                (world [false; true; false]) 2 signPrompt
                (or_intror eq_refl) eq_refl)
      as (Hexit & _ & _ & Hsign & _ & Hone & _).
    split; [exact Hexit|].
    split; [exact (proj2 (Hsign eq_refl)) | exact Hone].
Defined.

(** C8, as stated, fails: the run in which every prompt is answered
    "yes" reaches the last line after three prompts, not two. *)
Lemma complete_run_two_prompts_counterexample :
  ~ (forall (js : Externals) (env : Env) (w : World string),
        outcome js env w = inl tt ->
        List.length (confirmations (trace js env w)) = 2%nat).
Proof.
  intros H.
  specialize (H js holesky (world [true; true; true]) eq_refl).
  vm_compute in H. discriminate H.
Qed.

Lemma complete_run_shows_three_prompts_witness :
  outcome js holesky (world [true; true; true]) = inl tt /\
  List.length (confirmations (trace js holesky (world [true; true; true])))
  = 3%nat.
Proof.
  split.
  - reflexivity.
  - apply (complete_run_shows_three_prompts js holesky
             (world [true; true; true])).
    reflexivity.
Defined.

Lemma staking_transaction_built_from_table_witness :
  (In (SendTransaction stakingTx (Some "receipt"))
     (stakingStep (trace js holesky (world [true; true; true]))) /\
   (exists sender contractAddr value body data,
       web3_wallet_add js (PRIVATE_KEY holesky) = Some sender /\
       selectContract (NETWORK holesky) = Some contractAddr /\
       web3_toWei js amountInGwei gwei = Some value /\
       In (PostEthereumStakeIntent body (NETWORK holesky) (Some data))
         (stakingStep (trace js holesky (world [true; true; true]))) /\
       stakingTx
       = {| tx_from := address sender;
            tx_to := contractAddr;
            tx_value := value;
            tx_data := option_map unsigned_transaction (ethereum data) |}) /\
   option_map contract_address (ethereum intentData) = Some "0xC0FFEE") /\
  ((forall i,
       unsigned_transaction (Steady.setContract i) = unsigned_transaction i) /\
   answersAlike Steady.setContract
     (Steady.world intentData)
     (Steady.world (mapIntent Steady.setContract intentData)) /\
   outcome js holesky
     (Steady.world (mapIntent Steady.setContract intentData))
   = outcome js holesky (Steady.world intentData) /\
   trace js holesky (Steady.world (mapIntent Steady.setContract intentData))
   = mapTrace Steady.setContract
       (trace js holesky (Steady.world intentData))).
Proof.
  split; [split; [|split] | split; [|split]].
  - vm_compute. do 6 right. left. reflexivity.
  - apply (proj1 (staking_transaction_built_from_table js holesky
                    (world [true; true; true]))
             stakingTx (Some "receipt")).
    vm_compute. do 6 right. left. reflexivity.
  - reflexivity.
  - intros i. reflexivity.
  - repeat split; intros; reflexivity.
  - apply (proj2 (staking_transaction_built_from_table js holesky
                    (Steady.world intentData))
             Steady.setContract
             (Steady.world (mapIntent Steady.setContract intentData))).
    + intros i. reflexivity.
    + repeat split; intros; reflexivity.
Defined.

End Runs.


(** ** More on runs: consent, failures, bounds *)

Lemma selectContract_supported (network addr : string) :
  selectContract network = Some addr ->
  network = "mainnet" \/ network = "holesky".
Proof.
  unfold selectContract.
  destruct (String.eqb_spec network "mainnet") as [-> | _]; [now left|].
  destruct (String.eqb_spec network "holesky") as [-> | _]; [now right|].
  discriminate.
Qed.

Section MoreRunFacts.

Context {Receipt : Type}.
Variable js : Externals.
Variable env : Env.
Variable w : World Receipt.

(** X1. No broadcast without a "yes": the last prompt shown before any
    [sendTransaction] was answered "yes", and it is the test-transfer
    prompt or the sign-and-send prompt. *)
Theorem broadcast_follows_yes :
  forall i tx r,
    nth_error (trace js env w) i = Some (SendTransaction tx r) ->
    lastPrompt (firstn i (trace js env w)) = Some (sendPrompt js env, true) \/
    lastPrompt (firstn i (trace js env w)) = Some (signPrompt, true).
Proof.
  intros i tx r.
  run_cases; intros H; position i H.
  all: cbv [lastPrompt firstn confirmations map last]; auto.
Qed.

(** X2. The staking transaction is broadcast only after both staking
    prompts were answered "yes": when the staking step holds a broadcast,
    the prompts of the run are the test-transfer prompt, the create-intent
    prompt with "yes" and the sign-and-send prompt with "yes". *)
Theorem staking_broadcast_follows_two_yes :
  forall tx r,
    In (SendTransaction tx r) (stakingStep (trace js env w)) ->
    exists contractAddr answer,
      selectContract (NETWORK env) = Some contractAddr /\
      confirmations (trace js env w)
      = [(sendPrompt js env, answer);
         (createPrompt env contractAddr, true);
         (signPrompt, true)].
Proof.
  intros tx r.
  run_cases; cbn [stakingStep In confirmations]; intros H.
  all: repeat (destruct H as [H|H]; [try discriminate H|]);
    try contradiction.
  all: do 2 eexists; split; reflexivity.
Qed.

(** X3. A stake-intent request is sent for the network of the
    environment, which is then "mainnet" or "holesky", after
    [steak.auth] was given [STAKING_API_KEY], and the last prompt before
    it is the create-intent prompt, showing the table's address and
    answered "yes". *)
Theorem stake_intent_follows_auth_and_yes :
  forall i body network result,
    nth_error (trace js env w) i
    = Some (PostEthereumStakeIntent body network result) ->
    network = NETWORK env /\
    (network = "mainnet" \/ network = "holesky") /\
    In (Auth (STAKING_API_KEY env)) (firstn i (trace js env w)) /\
    exists contractAddr,
      selectContract (NETWORK env) = Some contractAddr /\
      lastPrompt (firstn i (trace js env w))
      = Some (createPrompt env contractAddr, true).
Proof.
  intros i body network result.
  pose proof (selectContract_supported (NETWORK env)) as Hsup.
  revert Hsup.
  run_cases; intros Hsup H; position i H.
  all: injection H as _ <- _.
  all: cbv [lastPrompt firstn confirmations map last In].
  all: repeat split; eauto 15.
Qed.

(** X4. The script itself never exits with a code other than 0: a run
    that ends in [process.exit] ends with code 0. *)
Theorem exit_code_is_zero :
  forall code, outcome js env w = inr (Exit code) -> code = 0%Z.
Proof.
  intros code.
  run_cases; intros H; try discriminate H.
  all: now injection H as <-.
Qed.

(** X5. A rejected call stops the run: when a balance query, a broadcast
    or the staking API request is rejected, the run ends there with an
    uncaught exception and that call is the last event. *)
Theorem rejected_call_stops_run :
  forall i e,
    nth_error (trace js env w) i = Some e ->
    isRejected e = true ->
    outcome js env w = inr Uncaught /\
    final (trace js env w) = Some e.
Proof.
  intros i e.
  run_cases; intros H; position i H.
  all: injection H as <-; cbn [isRejected]; intros R;
    try discriminate R.
  all: split; reflexivity.
Qed.

(** X6. A private key that the wallet refuses, on a supported network:
    the run ends with an uncaught exception right after the banner, with
    no network call and no prompt. *)
Theorem refused_key_stops_before_any_call :
  forall contractAddr,
    selectContract (NETWORK env) = Some contractAddr ->
    web3_wallet_add js (PRIVATE_KEY env) = None ->
    outcome js env w = inr Uncaught /\
    trace js env w = [ConsoleLog [LStr banner]].
Proof.
  intros contractAddr.
  run_cases; intros Hc Hk; try discriminate Hc; try discriminate Hk.
  all: split; reflexivity.
Qed.

(** X7. An uncaught exception has a cause: the wallet refused the key, or
    the last event is a rejected call, or [fromWei] threw on the numeral
    of the balance that was answered, or [toWei] threw on one of the two
    amounts. *)
Theorem uncaught_has_a_cause :
  outcome js env w = inr Uncaught ->
  web3_wallet_add js (PRIVATE_KEY env) = None \/
  (exists e, final (trace js env w) = Some e /\ isRejected e = true) \/
  (exists addr balWei,
      In (GetBalance addr (Some balWei)) (trace js env w) /\
      web3_fromWei js (BigInt_toString balWei) ether = None) \/
  web3_toWei js amountInETH ether = None \/
  web3_toWei js amountInGwei gwei = None.
Proof.
  run_cases; intros H; try discriminate H.
  all: cbn [final In isRejected].
  all: try (left; reflexivity).
  all: try (right; left; eexists; split; reflexivity).
  all: try (right; right; right; left; reflexivity).
  all: try (right; right; right; right; reflexivity).
  all: right; right; left; do 2 eexists; split; [|eassumption]; auto 10.
Qed.

(** X8. A run that reaches the last line has had its stake-intent request
    answered, has broadcast exactly one transaction in the staking step,
    answered with a receipt, and ends on the log of that receipt. *)
Theorem complete_run_has_staked :
  outcome js env w = inl tt ->
  exists body data tx receipt,
    In (PostEthereumStakeIntent body (NETWORK env) (Some data))
      (trace js env w) /\
    broadcasts (stakingStep (trace js env w))
    = [SendTransaction tx (Some receipt)] /\
    final (trace js env w)
    = Some (ConsoleLog [LStr "Receipt:"; LReceipt receipt; LStr nl]).
Proof.
  run_cases; intros H; try discriminate H.
  all: do 4 eexists; cbn [In stakingStep final];
    cbv [broadcasts filter isSendTransaction].
  all: split; [|split; reflexivity]; auto 20.
Qed.

(** X9. Bounds on what a run does: at most one balance query, at most
    three prompts, at most one [steak.auth], at most one stake-intent
    request, at most two broadcasts, of which at most one in the staking
    step. *)
Theorem run_call_bounds :
  (List.length (filter isBalanceQuery (trace js env w)) <= 1)%nat /\
  (List.length (confirmations (trace js env w)) <= 3)%nat /\
  (List.length (filter isAuth (trace js env w)) <= 1)%nat /\
  (List.length (filter isStakeIntentCall (trace js env w)) <= 1)%nat /\
  (List.length (broadcasts (trace js env w)) <= 2)%nat /\
  (List.length (broadcasts (stakingStep (trace js env w))) <= 1)%nat.
Proof.
  run_cases.
  all: cbv [broadcasts stakingStep filter confirmations isBalanceQuery
            isAuth isStakeIntentCall isSendTransaction List.length].
  all: repeat split; lia.
Qed.

(** X10. One account throughout: every balance query asks for the address
    of the account that the wallet gave for [PRIVATE_KEY], and every
    transaction is sent from that address. *)
Theorem one_account_throughout :
  forall sender e addr,
    web3_wallet_add js (PRIVATE_KEY env) = Some sender ->
    In e (trace js env w) ->
    accountOf e = Some addr ->
    addr = address sender.
Proof.
  intros sender e addr.
  run_cases; intros Hk H; try discriminate Hk.
  all: injection Hk as <-.
  all: cbn [In] in H.
  all: repeat (destruct H as [H|H];
               [subst e; cbn [accountOf tx_from];
                intros A; try discriminate A; now injection A as <-|]).
  all: contradiction.
Qed.

(** X11. Every answered broadcast is followed at once by the log of its
    receipt, and the answered stake-intent request by the log of the
    intent it returned. *)
Theorem answer_is_logged_next :
  forall i e args,
    nth_error (trace js env w) i = Some e ->
    reportOf e = Some args ->
    nth_error (trace js env w) (S i) = Some (ConsoleLog args).
Proof.
  intros i e args.
  run_cases; intros H; position i H.
  all: injection H as <-; cbn [reportOf]; intros R;
    try discriminate R.
  all: injection R as <-; reflexivity.
Qed.

(** X12. When the first prompt is answered "yes" and [toWei] gives a value
    for the test amount, the first broadcast of the run is the test
    transfer: from the sender to [RECEIVER_ADDRESS], with that value and
    no data. *)
Theorem accepted_test_transfer_is_broadcast :
  forall p value,
    nth_error (confirmations (trace js env w)) 0 = Some (p, true) ->
    web3_toWei js amountInETH ether = Some value ->
    exists sender result,
      web3_wallet_add js (PRIVATE_KEY env) = Some sender /\
      nth_error (broadcasts (trace js env w)) 0
      = Some (SendTransaction
                {| tx_from := address sender;
                   tx_to := RECEIVER_ADDRESS env;
                   tx_value := value;
                   tx_data := None |} result).
Proof.
  intros p value.
  run_cases; cbn [confirmations nth_error]; intros H V;
    try discriminate H; try discriminate V.
  all: injection V as <-.
  all: do 2 eexists; split; reflexivity.
Qed.

(** X13. The text of each prompt is fixed by its rank: the first is the
    test-transfer prompt, the second the create-intent prompt with the
    address of the static table, the third the sign-and-send prompt; there
    is no fourth. *)
Theorem prompt_texts :
  forall k p answer,
    nth_error (confirmations (trace js env w)) k = Some (p, answer) ->
    exists contractAddr,
      selectContract (NETWORK env) = Some contractAddr /\
      nth_error
        [sendPrompt js env; createPrompt env contractAddr; signPrompt] k
      = Some p.
Proof.
  intros k p answer.
  run_cases; cbn [confirmations]; intros H; position k H.
  all: injection H as <- _; eexists; split; reflexivity.
Qed.

(** X14. A test transfer that fails keeps the run away from the staking
    step: when the first prompt is answered "yes" and the first broadcast
    is rejected, [steak.auth] is never called and no stake-intent request
    is sent. *)
Theorem failed_test_transfer_skips_staking :
  forall p tx,
    nth_error (confirmations (trace js env w)) 0 = Some (p, true) ->
    nth_error (broadcasts (trace js env w)) 0
    = Some (SendTransaction tx None) ->
    filter isAuth (trace js env w) = [] /\
    filter isStakeIntentCall (trace js env w) = [].
Proof.
  intros p tx.
  run_cases; cbn [confirmations nth_error];
    cbv [broadcasts filter isSendTransaction isAuth isStakeIntentCall];
    cbn [nth_error]; intros H B; try discriminate H; try discriminate B.
  all: split; reflexivity.
Qed.

End MoreRunFacts.

(** ** The generated SDK *)

Module SDKFacts.
Import SDK.

Lemma sameEndpoint_same (a b : Operation) :
  sameEndpoint a b = true -> a = b.
Proof.
  destruct a; destruct b; intros H; try reflexivity;
    vm_compute in H; discriminate H.
Qed.

(** X15. No two endpoint methods of the SDK reach the same endpoint: two
    methods that hand [core.fetch] the same path and the same verb are
    the same method. *)
Theorem endpoints_are_distinct :
  forall a b,
    fetch_path (call a) = fetch_path (call b) ->
    fetch_verb (call a) = fetch_verb (call b) ->
    a = b.
Proof.
  intros a b Hp Hv. apply sameEndpoint_same.
  unfold sameEndpoint. rewrite Hp, Hv, !String.eqb_refl. reflexivity.
Qed.

(** X16. Every endpoint method calls a path under "/v1/" with one of
    three verbs, "get", "post" or "put"; a "get" method hands
    [core.fetch] its [metadata] alone, a "post" or "put" method hands its
    [body] first. *)
Theorem call_shape :
  forall op,
    String.prefix "/v1/" (fetch_path (call op)) = true /\
    In (fetch_verb (call op)) ["get"; "post"; "put"] /\
    if (fetch_verb (call op) =? "get")%string
    then fetch_params (call op) = [metadata]
    else hd_error (fetch_params (call op)) = Some body.
Proof.
  intros op. destruct op; vm_compute; intuition discriminate.
Qed.

(** X17. A method whose path has the [{network}] placeholder hands its
    [metadata], which carries the network, to [core.fetch]. *)
Theorem network_placeholder_needs_metadata :
  forall op,
    hasNetworkPlaceholder (fetch_path (call op)) = true ->
    passes metadata op = true.
Proof.
  intros op. destruct op; vm_compute; intuition discriminate.
Qed.

Lemma endpoints_are_distinct_witness :
  fetch_path (call cancelNearDeactivationIntent)
  = "/v1/near/{network}/deactivation-intents" /\
  fetch_verb (call cancelNearDeactivationIntent) = "put" /\
  cancelNearDeactivationIntent = cancelNearDeactivationIntent.
Proof.
  split; [reflexivity|]. split; [reflexivity|].
  apply (endpoints_are_distinct
           cancelNearDeactivationIntent cancelNearDeactivationIntent);
    reflexivity.
Defined.

Lemma network_placeholder_needs_metadata_witness :
  hasNetworkPlaceholder (fetch_path (call postEthereumStakeIntent)) = true /\
  passes metadata postEthereumStakeIntent = true.
Proof.
  split; [reflexivity|].
  apply (network_placeholder_needs_metadata postEthereumStakeIntent).
  reflexivity.
Defined.

End SDKFacts.

(** ** More runs on scripted surroundings *)

Module MoreRuns.
Import Scripted.
Import Faulty (allYes, failedTransfer).

Lemma broadcast_follows_yes_witness :
  nth_error allYes 6 = Some (SendTransaction Faulty.testTransfer (Some "receipt")) /\
  (lastPrompt (firstn 6 allYes) = Some (sendPrompt js holesky, true) \/
   lastPrompt (firstn 6 allYes) = Some (signPrompt, true)).
Proof.
  split; [reflexivity|].
  apply (broadcast_follows_yes js holesky (world [true; true; true])
           6 Faulty.testTransfer (Some "receipt")).
  reflexivity.
Defined.

Lemma staking_broadcast_follows_two_yes_witness :
  In (SendTransaction stakingTx (Some "receipt")) (stakingStep allYes) /\
  exists contractAddr answer,
    selectContract (NETWORK holesky) = Some contractAddr /\
    confirmations allYes
    = [(sendPrompt js holesky, answer);
       (createPrompt holesky contractAddr, true);
       (signPrompt, true)].
Proof.
  split.
  - vm_compute. do 6 right. left. reflexivity.
  - apply (staking_broadcast_follows_two_yes js holesky
             (world [true; true; true]) stakingTx (Some "receipt")).
    vm_compute. do 6 right. left. reflexivity.
Defined.

Lemma stake_intent_follows_auth_and_yes_witness :
  nth_error allYes 12
  = Some (PostEthereumStakeIntent request "holesky" (Some intentData)) /\
  In (Auth (STAKING_API_KEY holesky)) (firstn 12 allYes).
Proof.
  split; [reflexivity|].
  apply (stake_intent_follows_auth_and_yes js holesky
           (world [true; true; true])
           12 request "holesky" (Some intentData)).
  reflexivity.
Defined.

Lemma exit_code_is_zero_witness :
  outcome js holesky (world [false; false]) = inr (Exit 0) /\ (0 = 0)%Z.
Proof.
  split; [reflexivity|].
  apply (exit_code_is_zero js holesky (world [false; false]) 0%Z).
  reflexivity.
Defined.

Lemma rejected_call_stops_run_witness :
  nth_error (trace js holesky failedTransfer) 6
  = Some (SendTransaction Faulty.testTransfer None) /\
  outcome js holesky failedTransfer = inr Uncaught /\
  final (trace js holesky failedTransfer)
  = Some (SendTransaction Faulty.testTransfer None).
Proof.
  split; [reflexivity|].
  apply (rejected_call_stops_run js holesky failedTransfer
           6 (SendTransaction Faulty.testTransfer None));
    reflexivity.
Defined.

Lemma refused_key_stops_before_any_call_witness :
  web3_wallet_add Faulty.noWallet (PRIVATE_KEY holesky) = None /\
  outcome Faulty.noWallet holesky (world [true; true; true]) = inr Uncaught /\
  trace Faulty.noWallet holesky (world [true; true; true])
  = [ConsoleLog [LStr banner]].
Proof.
  split; [reflexivity|].
  apply (refused_key_stops_before_any_call Faulty.noWallet holesky
           (world [true; true; true])
           "0x0b6e07c5ead5596c1f26ca2f6b97050cec853671");
    reflexivity.
Defined.

Lemma uncaught_has_a_cause_witness :
  outcome Faulty.noToWei holesky (world [true; true; true]) = inr Uncaught /\
  (web3_wallet_add Faulty.noToWei (PRIVATE_KEY holesky) = None \/
   (exists e,
       final (trace Faulty.noToWei holesky (world [true; true; true]))
       = Some e /\ isRejected e = true) \/
   (exists addr balWei,
       In (GetBalance addr (Some balWei))
         (trace Faulty.noToWei holesky (world [true; true; true])) /\
       web3_fromWei Faulty.noToWei (BigInt_toString balWei) ether = None) \/
   web3_toWei Faulty.noToWei amountInETH ether = None \/
   web3_toWei Faulty.noToWei amountInGwei gwei = None).
Proof.
  split; [reflexivity|].
  apply (uncaught_has_a_cause Faulty.noToWei holesky
           (world [true; true; true])).
  reflexivity.
Defined.

Lemma complete_run_has_staked_witness :
  outcome js holesky (world [true; true; true]) = inl tt /\
  exists body data tx receipt,
    In (PostEthereumStakeIntent body (NETWORK holesky) (Some data)) allYes /\
    broadcasts (stakingStep allYes) = [SendTransaction tx (Some receipt)] /\
    final allYes
    = Some (ConsoleLog [LStr "Receipt:"; LReceipt receipt; LStr nl]).
Proof.
  split; [reflexivity|].
  apply (complete_run_has_staked js holesky (world [true; true; true])).
  reflexivity.
Defined.

Lemma one_account_throughout_witness :
  In (SendTransaction stakingTx (Some "receipt")) allYes /\
  tx_from stakingTx = address {| address := "0xA11CE" |}.
Proof.
  split.
  - vm_compute. do 16 right. left. reflexivity.
  - apply (one_account_throughout js holesky (world [true; true; true])
             {| address := "0xA11CE" |}
             (SendTransaction stakingTx (Some "receipt"))
             (tx_from stakingTx)).
    + reflexivity.
    + vm_compute. do 16 right. left. reflexivity.
    + reflexivity.
Defined.

Lemma answer_is_logged_next_witness :
  nth_error allYes 12
  = Some (PostEthereumStakeIntent request "holesky" (Some intentData)) /\
  nth_error allYes 13
  = Some (ConsoleLog
            [LStr "Intent:"; LIntent (ethereum intentData); LStr nl]).
Proof.
  split; [reflexivity|].
  apply (answer_is_logged_next js holesky (world [true; true; true])
           12 (PostEthereumStakeIntent request "holesky" (Some intentData)));
    reflexivity.
Defined.

Lemma accepted_test_transfer_is_broadcast_witness :
  nth_error (confirmations allYes) 0 = Some (sendPrompt js holesky, true) /\
  web3_toWei js amountInETH ether = Some "1000000000000" /\
  exists sender result,
    web3_wallet_add js (PRIVATE_KEY holesky) = Some sender /\
    nth_error (broadcasts allYes) 0
    = Some (SendTransaction
              {| tx_from := address sender;
                 tx_to := RECEIVER_ADDRESS holesky;
                 tx_value := "1000000000000";
                 tx_data := None |} result).
Proof.
  split; [reflexivity|]. split; [reflexivity|].
  apply (accepted_test_transfer_is_broadcast js holesky
           (world [true; true; true])
           (sendPrompt js holesky) "1000000000000");
    reflexivity.
Defined.

Lemma prompt_texts_witness :
  nth_error (confirmations allYes) 1
  = Some (createPrompt holesky
            "0x0b6e07c5ead5596c1f26ca2f6b97050cec853671", true) /\
  exists contractAddr,
    selectContract (NETWORK holesky) = Some contractAddr /\
    nth_error
      [sendPrompt js holesky; createPrompt holesky contractAddr; signPrompt]
      1
    = Some (createPrompt holesky
              "0x0b6e07c5ead5596c1f26ca2f6b97050cec853671").
Proof.
  split; [reflexivity|].
  apply (prompt_texts js holesky (world [true; true; true]) 1
           (createPrompt holesky
              "0x0b6e07c5ead5596c1f26ca2f6b97050cec853671") true).
  reflexivity.
Defined.

Lemma failed_test_transfer_skips_staking_witness :
  nth_error (confirmations (trace js holesky failedTransfer)) 0
  = Some (sendPrompt js holesky, true) /\
  nth_error (broadcasts (trace js holesky failedTransfer)) 0
  = Some (SendTransaction Faulty.testTransfer None) /\
  filter isAuth (trace js holesky failedTransfer) = [] /\
  filter isStakeIntentCall (trace js holesky failedTransfer) = [].
Proof.
  split; [reflexivity|]. split; [reflexivity|].
  apply (failed_test_transfer_skips_staking js holesky failedTransfer
           (sendPrompt js holesky) Faulty.testTransfer);
    reflexivity.
Defined.

End MoreRuns.
